(** * ChemAssistant: a shallow embedding of the molecule graph model,
    the builder's edit operations, the renderer's click handling,
    the sanitisation of AI-produced product graphs, the batch and live
    layouts, molecule identification and the element palette. *)

From Stdlib Require Import List String Ascii Bool ZArith QArith Qminmax Lia Lqa.
Import ListNotations.
Open Scope string_scope.

(** ** types.ts *)

Module ElementType.
Inductive t :=
  | H | C | O | N | Cl | Na | S | F | P | Mg | K | Ca | Fe | Br | I.
End ElementType.
Abbreviation ElementType := ElementType.t.

(** The string value of each enum member ([ElementType.Cl = 'Cl'], ...). *)
Definition element_symbol (e : ElementType) : string :=
  match e with
  | ElementType.H => "H" | ElementType.C => "C" | ElementType.O => "O"
  | ElementType.N => "N" | ElementType.Cl => "Cl" | ElementType.Na => "Na"
  | ElementType.S => "S" | ElementType.F => "F" | ElementType.P => "P"
  | ElementType.Mg => "Mg" | ElementType.K => "K" | ElementType.Ca => "Ca"
  | ElementType.Fe => "Fe" | ElementType.Br => "Br" | ElementType.I => "I"
  end.

(** [Object.values(ElementType)]: the members in declaration order. *)
Definition element_values : list ElementType :=
  [ElementType.H; ElementType.C; ElementType.O; ElementType.N;
   ElementType.Cl; ElementType.Na; ElementType.S; ElementType.F;
   ElementType.P; ElementType.Mg; ElementType.K; ElementType.Ca;
   ElementType.Fe; ElementType.Br; ElementType.I].

(** An atom's [element] field holds a string at run time: the enum type is
    only a cast ([a.element as ElementType]) where atoms come from the
    prediction service. *)
Record AtomData := mkAtom {
  atom_id : string;
  element : string;
  x : Q;
  y : Q
}.

Record BondData := mkBond {
  bond_id : string;
  sourceAtomId : string;
  targetAtomId : string;
  order : Z
}.

Record Molecule := mkMolecule {
  mol_id : string;
  name : string;
  atoms : list AtomData;
  bonds : list BondData
}.

Definition with_atoms (m : Molecule) (l : list AtomData) : Molecule :=
  mkMolecule (mol_id m) (name m) l (bonds m).

Definition with_bonds (m : Molecule) (l : list BondData) : Molecule :=
  mkMolecule (mol_id m) (name m) (atoms m) l.

(** ** Ids built from [Date.now()] and indices: decimal rendering of a
    natural number, as a template literal does. *)

Fixpoint digits_aux (fuel n : nat) (acc : string) : string :=
  match fuel with
  | Datatypes.O => acc
  | Datatypes.S f =>
      let acc' := String (ascii_of_nat (Nat.add 48 (Nat.modulo n 10))) acc in
      if Nat.ltb n 10 then acc' else digits_aux f (Nat.div n 10) acc'
  end.

Definition string_of_nat (n : nat) : string := digits_aux (Datatypes.S n) n "".

(** ** The builder's edit operations (src/constants.ts, [Builder]) *)

Definition CANVAS_width : Q := 600.
Definition CANVAS_height : Q := 400.

(** [addAtom]: a new atom with id [atom-${Date.now()}] near the centre;
    [now] is the clock value and [jx], [jy] the two [Math.random()] draws. *)
Definition addAtom (m : Molecule) (el : ElementType) (now : nat) (jx jy : Q)
  : Molecule :=
  let newAtom := mkAtom ("atom-" ++ string_of_nat now) (element_symbol el)
                   (CANVAS_width / 2 + (jx - (1 # 2)) * 60)%Q
                   (CANVAS_height / 2 + (jy - (1 # 2)) * 60)%Q in
  with_atoms m (atoms m ++ [newAtom]).

Definition handleAtomDelete (m : Molecule) (atomId : string) : Molecule :=
  mkMolecule (mol_id m) (name m)
    (filter (fun a => negb (String.eqb (atom_id a) atomId)) (atoms m))
    (filter (fun b => negb (String.eqb (sourceAtomId b) atomId)
                      && negb (String.eqb (targetAtomId b) atomId)) (bonds m)).

Definition handleBondDelete (m : Molecule) (bondId : string) : Molecule :=
  with_bonds m (filter (fun b => negb (String.eqb (bond_id b) bondId)) (bonds m)).

(** ** The renderer's click handling *)

Inductive Mode := Build | Erase.

(** The renderer state a click reads and writes: [internalMolecule], the
    pending bond source [selectedAtomId] and [isDraggingRef.current]. *)
Record Viewer := mkViewer {
  internalMolecule : Molecule;
  selectedAtomId : option string;
  isDragging : bool
}.

(** The callbacks a handler invokes on its parent. *)
Inductive Callback :=
  | onUpdate (m : Molecule)
  | onAtomDelete (atomId : string).

(** [selectedAtomId && ...]: [null] and the empty string are falsy. *)
Definition truthy (o : option string) : option string :=
  match o with
  | Some s => if String.eqb s "" then None else Some s
  | None => None
  end.

(** [setSelectedAtomId(atomId === selectedAtomId ? null : atomId)] *)
Definition toggleSelection (sel : option string) (atomId : string) : option string :=
  match sel with
  | Some s => if String.eqb atomId s then None else Some atomId
  | None => Some atomId
  end.

(** The predicate of [bonds.findIndex] / [bonds.some]: a bond joining
    [a] and [b] in either direction. *)
Definition joins (a b : string) (bd : BondData) : bool :=
  (String.eqb (sourceAtomId bd) a && String.eqb (targetAtomId bd) b)
  || (String.eqb (targetAtomId bd) a && String.eqb (sourceAtomId bd) b).

Fixpoint findIndex {A} (p : A -> bool) (l : list A) : option nat :=
  match l with
  | [] => None
  | h :: t => if p h then Some 0%nat
              else option_map Datatypes.S (findIndex p t)
  end.

(** [arr[i] = v] on a copied array, [i] within range. *)
Fixpoint replace_nth {A} (i : nat) (v : A) (l : list A) : list A :=
  match l, i with
  | [], _ => []
  | _ :: t, Datatypes.O => v :: t
  | h :: t, Datatypes.S j => h :: replace_nth j v t
  end.

(** src/unnamed/part_001, lines 180-227: the version that cycles orders. *)
Module CyclingRenderer.

(** [bond.order === 1 ? 2 : (bond.order === 2 ? 3 : 1)] *)
Definition cycleOrder (o : Z) : Z :=
  if Z.eqb o 1 then 2%Z else if Z.eqb o 2 then 3%Z else 1%Z.

(** The body of the [selectedAtomId && selectedAtomId !== atomId] branch:
    cycle the order of the first bond joining the pair, or append a new
    single bond [bond-${Date.now()}] from [sel] to [atomId]. *)
Definition addOrCycleBond (m : Molecule) (sel atomId : string) (now : nat)
  : Molecule :=
  match findIndex (joins sel atomId) (bonds m) with
  | Some i =>
      match nth_error (bonds m) i with
      | Some bd =>
          with_bonds m
            (replace_nth i (mkBond (bond_id bd) (sourceAtomId bd)
                              (targetAtomId bd) (cycleOrder (order bd)))
               (bonds m))
      | None => m
      end
  | None =>
      with_bonds m (bonds m ++ [mkBond ("bond-" ++ string_of_nat now) sel atomId 1])
  end.

(** [handleAtomClick]; [interactive] and [mode] are props, [now] is the
    clock read by [Date.now()]. The selection is left as it is after a
    bond is created or cycled. *)
Definition handleAtomClick (interactive : bool) (mode : Mode) (now : nat)
  (v : Viewer) (atomId : string) : Viewer * list Callback :=
  if negb interactive then (v, []) else
  match mode with
  | Erase => (v, [onAtomDelete atomId])
  | Build =>
      if isDragging v then (v, []) else
      match truthy (selectedAtomId v) with
      | Some sel =>
          if negb (String.eqb sel atomId) then
            let updated := addOrCycleBond (internalMolecule v) sel atomId now in
            (mkViewer updated (selectedAtomId v) (isDragging v), [onUpdate updated])
          else
            (mkViewer (internalMolecule v)
               (toggleSelection (selectedAtomId v) atomId) (isDragging v), [])
      | None =>
          (mkViewer (internalMolecule v)
             (toggleSelection (selectedAtomId v) atomId) (isDragging v), [])
      end
  end.

End CyclingRenderer.

(** src/components/MoleculeRenderer.tsx, lines 132-168: the version that
    only creates single bonds and clears the selection afterwards. *)
Module BasicRenderer.

Definition handleAtomClick (interactive : bool) (mode : Mode) (now : nat)
  (v : Viewer) (atomId : string) : Viewer * list Callback :=
  if negb interactive then (v, []) else
  match mode with
  | Erase => (v, [onAtomDelete atomId])
  | Build =>
      if isDragging v then (v, []) else
      match truthy (selectedAtomId v) with
      | Some sel =>
          if negb (String.eqb sel atomId) then
            let m := internalMolecule v in
            if existsb (joins sel atomId) (bonds m) then
              (mkViewer m None (isDragging v), [])
            else
              let updated := with_bonds m (bonds m ++
                               [mkBond ("bond-" ++ string_of_nat now) sel atomId 1]) in
              (mkViewer updated None (isDragging v), [onUpdate updated])
          else
            (mkViewer (internalMolecule v)
               (toggleSelection (selectedAtomId v) atomId) (isDragging v), [])
      | None =>
          (mkViewer (internalMolecule v)
             (toggleSelection (selectedAtomId v) atomId) (isDragging v), [])
      end
  end.

End BasicRenderer.

(** ** The builder session: [Builder] (src/constants.ts, first component)
    driving the cycling renderer. The renderer's [internalMolecule] is
    re-synchronised from the [molecule] prop after each edit, so a single
    molecule stands for both. *)

Record Session := mkSession {
  currentMolecule : Molecule;
  builderMode : Mode;
  selection : option string;
  dragFlag : bool
}.

(** The Builder's reaction to a renderer callback: [handleMoleculeUpdate]
    installs the new molecule, [handleAtomDelete] filters. *)
Definition applyCallback (m : Molecule) (cb : Callback) : Molecule :=
  match cb with
  | onUpdate m' => m'
  | onAtomDelete atomId => handleAtomDelete m atomId
  end.

(** [handlePointerMove] while an atom is dragged: move that atom. *)
Definition moveAtom (m : Molecule) (atomId : string) (px py : Q) : Molecule :=
  with_atoms m (map (fun a => if String.eqb (atom_id a) atomId
                              then mkAtom (atom_id a) (element a) px py else a)
                  (atoms m)).

Inductive Event :=
  | AddAtom (el : ElementType) (now : nat) (jx jy : Q)
      (** a palette button: [addAtom(el)] *)
  | SetMode (md : Mode)
      (** the Build / Eraser toolbar buttons *)
  | TapAtom (atomId : string) (now : nat)
      (** pointer-down, pointer-up and click on an atom, with no move *)
  | DragAtom (atomId : string) (px py : Q) (now : nat)
      (** pointer-down on an atom, one move to [(px,py)], pointer-up, and
          the click the browser fires afterwards *)
  | DeleteBond (bondId : string)
      (** [handleBondDelete(bondId)] *).

Definition clickAtom (s : Session) (m : Molecule) (drag : bool)
  (atomId : string) (now : nat) : Session :=
  let '(v', cbs) := CyclingRenderer.handleAtomClick true (builderMode s) now
                      (mkViewer m (selection s) drag) atomId in
  mkSession (fold_left applyCallback cbs m) (builderMode s)
    (selectedAtomId v') (isDragging v').

Definition step (s : Session) (e : Event) : Session :=
  match e with
  | AddAtom el now jx jy =>
      (* [if (mode === 'erase') setMode('build')] *)
      mkSession (addAtom (currentMolecule s) el now jx jy) Build
        (selection s) (dragFlag s)
  | SetMode md => mkSession (currentMolecule s) md (selection s) (dragFlag s)
  | TapAtom atomId now =>
      match builderMode s with
      | Build => clickAtom s (currentMolecule s) false atomId now
      | Erase => clickAtom s (currentMolecule s) (dragFlag s) atomId now
      end
  | DragAtom atomId px py now =>
      match builderMode s with
      | Build => clickAtom s (moveAtom (currentMolecule s) atomId px py) true atomId now
      | Erase => clickAtom s (currentMolecule s) (dragFlag s) atomId now
      end
  | DeleteBond bondId =>
      mkSession (handleBondDelete (currentMolecule s) bondId) (builderMode s)
        (selection s) (dragFlag s)
  end.

Definition run (s : Session) (es : list Event) : Session := fold_left step es s.

Definition emptyMolecule : Molecule := mkMolecule "temp-builder" "New Molecule" [] [].

Definition initSession : Session := mkSession emptyMolecule Build None false.

(** The GraphModel invariants of the data model. *)
Definition atomIds (m : Molecule) : list string := map atom_id (atoms m).

Definition graphInvariant (m : Molecule) : Prop :=
  (forall b, In b (bonds m) ->
     In (sourceAtomId b) (atomIds m) /\ In (targetAtomId b) (atomIds m))
  /\ NoDup (atomIds m)
  /\ NoDup (map bond_id (bonds m)).

(** ** Sanitisation of predicted products (src/unnamed/part_000,
    [simulateReaction], lines 151-177). The parsed JSON is modelled with
    [None] for a missing field; ids, elements and bond endpoints are
    strings and the order an integer, as the response schema declares. *)

Record GeminiAtom := mkGeminiAtom {
  g_id : option string;
  g_element : option string
}.

Record GeminiBond := mkGeminiBond {
  g_source : option string;
  g_target : option string;
  g_order : option Z
}.

Record GeminiMolecule := mkGeminiMolecule {
  g_name : option string;
  g_atoms : option (list GeminiAtom);
  g_bonds : option (list GeminiBond)
}.

(** JavaScript truthiness of an optional string. *)
Definition truthyStr (o : option string) : bool :=
  match o with Some s => negb (String.eqb s "") | None => false end.

Definition strOf (o : option string) : string :=
  match o with Some s => s | None => "" end.

(** [a => a.id && a.element] *)
Definition validAtom (a : GeminiAtom) : bool :=
  truthyStr (g_id a) && truthyStr (g_element a).

(** [atomIdSet.has(v)]: [undefined] is never a member of a set of strings. *)
Definition setHas (ids : list string) (o : option string) : bool :=
  match o with Some s => existsb (String.eqb s) ids | None => false end.

(** [b.order || 1] *)
Definition orderOr1 (o : option Z) : Z :=
  match o with Some z => if Z.eqb z 0 then 1%Z else z | None => 1%Z end.

(** [p.name || "Product"] *)
Definition nameOr (o : option string) : string :=
  match o with Some s => if String.eqb s "" then "Product" else s | None => "Product" end.

Fixpoint mapi_from {A B} (f : nat -> A -> B) (i : nat) (l : list A) : list B :=
  match l with
  | [] => []
  | h :: t => f i h :: mapi_from f (Datatypes.S i) t
  end.

Definition mapi {A B} (f : nat -> A -> B) (l : list A) : list B := mapi_from f 0 l.

(** The [rawMolecule] built for the product at [index]; [now] is
    [Date.now()]. *)
Definition sanitizeProduct (p : GeminiMolecule) (index now : nat) : Molecule :=
  let validAtoms := filter validAtom (match g_atoms p with Some l => l | None => [] end) in
  let atomIdSet := map (fun a => strOf (g_id a)) validAtoms in
  let validBonds := filter (fun b => setHas atomIdSet (g_source b)
                                     && setHas atomIdSet (g_target b))
                      (match g_bonds p with Some l => l | None => [] end) in
  mkMolecule ("product-" ++ string_of_nat index ++ "-" ++ string_of_nat now)
    (nameOr (g_name p))
    (map (fun a => mkAtom (strOf (g_id a)) (strOf (g_element a)) 0 0) validAtoms)
    (mapi (fun bIndex b =>
             mkBond ("bond-" ++ string_of_nat index ++ "-" ++ string_of_nat bIndex)
               (strOf (g_source b)) (strOf (g_target b)) (orderOr1 (g_order b)))
          validBonds).

(** ** Batch layout (src/unnamed/part_000, [autoLayoutMolecule]).
    The force simulation is d3's library code: [settle i] is the position
    it leaves node [i] at after the 300 ticks (starting from the atom's
    position, or from a random point near the centre for an atom at
    (0,0)); any such outcome is allowed. [d3.forceLink] throws
    ["node not found"] when a link names an id absent from the nodes:
    that is [None]. *)

Definition clampCoord (dimension v : Q) : Q := Qmax 30 (Qmin (dimension - 30) v).

Definition linksResolve (m : Molecule) : bool :=
  forallb (fun b => existsb (String.eqb (sourceAtomId b)) (atomIds m)
                    && existsb (String.eqb (targetAtomId b)) (atomIds m))
    (bonds m).

Definition autoLayoutMolecule (m : Molecule) (width height : Q)
  (settle : nat -> Q * Q) : option Molecule :=
  match atoms m with
  | [] => Some m
  | _ :: _ =>
      if linksResolve m then
        Some (mkMolecule (mol_id m) (name m)
                (mapi (fun i n => mkAtom (atom_id n) (element n)
                                    (clampCoord width (fst (settle i)))
                                    (clampCoord height (snd (settle i))))
                   (atoms m))
                (bonds m))
      else None
  end.

(** The full per-product pipeline of [simulateReaction]. *)
Definition productMolecule (p : GeminiMolecule) (index now : nat)
  (settle : nat -> Q * Q) : option Molecule :=
  autoLayoutMolecule (sanitizeProduct p index now) 400 300 settle.


(** ** Molecule identification (src/unnamed/part_000, [identifyMolecule]) *)

(** [String.prototype.trim] over the ASCII whitespace characters. *)
Definition isWs (c : ascii) : bool :=
  match nat_of_ascii c with
  | 9 | 10 | 11 | 12 | 13 | 32 => true
  | _ => false
  end%nat.

Fixpoint dropWs (l : list ascii) : list ascii :=
  match l with
  | c :: t => if isWs c then dropWs t else l
  | [] => []
  end.


(** [counts[a.element] = (counts[a.element] || 0) + 1]: an association
    list in insertion order, the order [Object.entries] reports for
    element-symbol keys. *)
Fixpoint bump (el : string) (counts : list (string * nat)) : list (string * nat) :=
  match counts with
  | [] => [(el, 1%nat)]
  | (k, c) :: t => if String.eqb k el then (k, Datatypes.S c) :: t
                   else (k, c) :: bump el t
  end.

Definition elementCounts (m : Molecule) : list (string * nat) :=
  fold_left (fun acc a => bump (element a) acc) (atoms m) [].


(** What [ai.models.generateContent] does: throw, or resolve with a
    response whose [text] may be undefined. *)
Inductive GenResponse :=
  | GenThrows
  | GenText (text : option string).



(** ** The element palette (src/constants.ts) *)

Record ElementStyle := mkStyle {
  bg : string;
  border : string;
  text : string;
  radius : Z
}.

(** [ELEMENT_COLORS]: the entries the object literal declares. *)
Definition ELEMENT_COLORS : list (ElementType * ElementStyle) :=
  [(ElementType.H, mkStyle "#FFFFFF" "#94a3b8" "#334155" 20);
   (ElementType.C, mkStyle "#334155" "#1e293b" "#FFFFFF" 25);
   (ElementType.O, mkStyle "#ef4444" "#b91c1c" "#FFFFFF" 24);
   (ElementType.N, mkStyle "#3b82f6" "#1d4ed8" "#FFFFFF" 24);
   (ElementType.Cl, mkStyle "#22c55e" "#15803d" "#FFFFFF" 26);
   (ElementType.Na, mkStyle "#a855f7" "#7e22ce" "#FFFFFF" 28);
   (ElementType.S, mkStyle "#eab308" "#a16207" "#FFFFFF" 26);
   (ElementType.F, mkStyle "#14b8a6" "#0f766e" "#FFFFFF" 22)].

(** [ELEMENT_COLORS[el]]: [None] is [undefined]. *)
Definition lookupColor (el : ElementType) : option ElementStyle :=
  option_map snd (find (fun '(k, _) => String.eqb (element_symbol k) (element_symbol el))
                    ELEMENT_COLORS).

(** One palette button of the Builder: reading [style.bg] on [undefined]
    throws a [TypeError], modelled as [None]. *)
Definition paletteButton (el : ElementType) : option (string * string * string) :=
  match lookupColor el with
  | Some style => Some (bg style, border style,
                        if String.eqb (text style) "#FFFFFF" then "white" else text style)
  | None => None
  end.

(** The whole palette, [Object.values(ElementType).map(...)]: rendering
    throws as soon as one button does. *)
Definition renderPalette : option (list (string * string * string)) :=
  fold_right (fun el acc => match paletteButton el, acc with
                            | Some b, Some l => Some (b :: l)
                            | _, _ => None
                            end) (Some []) element_values.

(** ** The builder with its undo history (src/constants.ts, first
    [Builder], lines 29-153). *)
Module Builder.

Record State := mkState {
  currentMolecule : Molecule;
  history : list Molecule;
  mode : Mode
}.

(** [setHistory(prev => [...prev, currentMolecule])] *)
Definition saveHistory (s : State) : list Molecule :=
  (history s ++ [currentMolecule s])%list.

(** [handleUndo]: restore the last snapshot and drop it. *)
Definition handleUndo (s : State) : State :=
  match rev (history s) with
  | [] => s
  | previous :: _ => mkState previous (removelast (history s)) (mode s)
  end.

Definition addAtom (s : State) (el : ElementType) (now : nat) (jx jy : Q) : State :=
  mkState (addAtom (currentMolecule s) el now jx jy) (saveHistory s) Build.

Definition handleAtomDelete (s : State) (atomId : string) : State :=
  mkState (handleAtomDelete (currentMolecule s) atomId) (saveHistory s) (mode s).

Definition handleBondDelete (s : State) (bondId : string) : State :=
  mkState (handleBondDelete (currentMolecule s) bondId) (saveHistory s) (mode s).

(** [handleMoleculeUpdate]: a snapshot only when the atom or bond count
    changes. *)
Definition handleMoleculeUpdate (s : State) (newMolecule : Molecule) : State :=
  if Nat.eqb (List.length (atoms newMolecule)) (List.length (atoms (currentMolecule s)))
     && Nat.eqb (List.length (bonds newMolecule)) (List.length (bonds (currentMolecule s)))
  then mkState newMolecule (history s) (mode s)
  else mkState newMolecule (saveHistory s) (mode s).

(** [handleAutoLayout] on the 600 x 400 canvas; [None] when the layout
    throws. *)
Definition handleAutoLayout (s : State) (settle : nat -> Q * Q) : option State :=
  match atoms (currentMolecule s) with
  | [] => Some s
  | _ :: _ =>
      match autoLayoutMolecule (currentMolecule s) CANVAS_width CANVAS_height settle with
      | Some formatted => Some (mkState formatted (saveHistory s) (mode s))
      | None => None
      end
  end.

Definition clearCanvas (s : State) (now : nat) : State :=
  mkState (mkMolecule ("temp-" ++ string_of_nat now) "New Molecule" [] [])
    (saveHistory s) (mode s).

(** [handleLoad]: the JSON deep clone is the same value. *)
Definition handleLoad (s : State) (mol : Molecule) : State :=
  mkState mol [] (mode s).

Definition with_id (m : Molecule) (i : string) : Molecule :=
  mkMolecule i (name m) (atoms m) (bonds m).

(** [handleSave]: the molecule passed to [onSave], if any, and the state
    after [clearCanvas()]; [now] and [now'] are the two [Date.now()]
    reads. *)
Definition handleSave (s : State) (savedMolecules : list Molecule) (now now' : nat)
  : option Molecule * State :=
  let cur := currentMolecule s in
  match atoms cur with
  | [] => (None, s)
  | _ :: _ =>
      let moleculeToSave :=
        match find (fun m => String.eqb (mol_id m) (mol_id cur)) savedMolecules with
        | None => with_id cur ("mol-" ++ string_of_nat now)
        | Some original =>
            if negb (String.eqb (name original) (name cur))
            then with_id cur ("mol-" ++ string_of_nat now) else cur
        end in
      (Some moleculeToSave, clearCanvas s now')
  end.





End Builder.

(** ** Zoom, pan and drag in the renderer (src/unnamed/part_001,
    lines 94-177). Coordinates are rationals. *)
Module View.

Record Transform := mkTransform { k : Q; tx : Q; ty : Q }.

Definition identity : Transform := mkTransform 1 0 0.

(** [handleZoom(factor)] on a [width] x [height] viewer. *)
Definition handleZoom (width height factor : Q) (prev : Transform) : Transform :=
  let newK := Qmax (1 # 5) (Qmin 5 (k prev * factor)) in
  let cx := width / 2 in
  let cy := height / 2 in
  let wx := (cx - tx prev) / k prev in
  let wy := (cy - ty prev) / k prev in
  mkTransform newK (cx - wx * newK) (cy - wy * newK).

(** [handleWheel]: [deltaY > 0] zooms out by 0.9, otherwise in by 1.1. *)
Definition handleWheel (width height deltaY : Q) (prev : Transform) : Transform :=
  handleZoom width height (if Qlt_le_dec 0 deltaY then 9 # 10 else 11 # 10) prev.

(** The panning part of the renderer state. *)
Record PanState := mkPan {
  transform : Transform;
  isPanning : bool;
  lastPan : option (Q * Q)
}.

Definition handleSvgPointerDown (s : PanState) (p : Q * Q) : PanState :=
  mkPan (transform s) true (Some p).

(** [handlePointerMove] when no atom is dragged. *)
Definition panMove (s : PanState) (p : Q * Q) : PanState :=
  match isPanning s, lastPan s with
  | true, Some (lx, ly) =>
      let dx := fst p - lx in
      let dy := snd p - ly in
      mkPan (mkTransform (k (transform s)) (tx (transform s) + dx) (ty (transform s) + dy))
        true (Some p)
  | _, _ => s
  end.

Definition handlePointerUp (s : PanState) : PanState := mkPan (transform s) false None.

(** A background pan gesture: down at [p0], the moves, then up. *)
Definition panGesture (s : PanState) (p0 : Q * Q) (moves : list (Q * Q)) : PanState :=
  handlePointerUp (fold_left panMove moves (handleSvgPointerDown s p0)).

(** The model point an atom is dragged to, from the pointer position in
    SVG coordinates ([rawX], [rawY]). *)
Definition dragTarget (t : Transform) (rawX rawY : Q) : Q * Q :=
  ((rawX - tx t) / k t, (rawY - ty t) / k t).

(** Where the [translate(x,y) scale(k)] group draws a model point. *)
Definition toScreen (t : Transform) (p : Q * Q) : Q * Q :=
  (fst p * k t + tx t, snd p * k t + ty t).

End View.

(** ** The reaction flow: [simulateReaction] (src/unnamed/part_000,
    lines 62-193) and the [ReactionLab] (src/unnamed/part_002). *)

Record ReactionResult := mkReactionResult {
  equation : string;
  explanation : string;
  products : list Molecule
}.

(** The parsed JSON object of the response. *)
Record ParsedReaction := mkParsed {
  p_equation : option string;
  p_explanation : option string;
  p_products : option (list GeminiMolecule)
}.

Inductive ReactionOutcome :=
  | ReactionResolved (r : ReactionResult)
  | ReactionRejected (message : string).

Definition backticks : list ascii := list_ascii_of_string "```".

Fixpoint startsWith (pre l : list ascii) : bool :=
  match pre, l with
  | [], _ => true
  | c :: pre', d :: l' => Ascii.eqb c d && startsWith pre' l'
  | _ :: _, [] => false
  end.

(** [text.replace(/^```(json)?\s*/, "")] *)
Definition stripOpenFence (l : list ascii) : list ascii :=
  if startsWith backticks l then
    let rest := skipn 3 l in
    let rest := if startsWith (list_ascii_of_string "json") rest then skipn 4 rest else rest in
    dropWs rest
  else l.

(** [.replace(/\s*```$/, "")]: the leftmost match starts at the
    whitespace run before a final fence. *)
Definition stripCloseFence (l : list ascii) : list ascii :=
  if startsWith backticks (rev l) then rev (dropWs (skipn 3 (rev l))) else l.

(** [if (text.startsWith("```")) { text = ... }] *)
Definition cleanFences (text : string) : string :=
  let l := list_ascii_of_string text in
  if startsWith backticks l
  then string_of_list_ascii (stripCloseFence (stripOpenFence l))
  else text.

Fixpoint mapOptionI {A B} (f : nat -> A -> option B) (i : nat) (l : list A)
  : option (list B) :=
  match l with
  | [] => Some []
  | h :: t => match f i h, mapOptionI f (Datatypes.S i) t with
              | Some b, Some bs => Some (b :: bs)
              | _, _ => None
              end
  end.

Definition reactionFailure : string := "Failed to simulate reaction. Please try again.".

(** [simulateReaction]: [jsonParse] is [JSON.parse] ([None] when it
    throws), [clock i] the [Date.now()] read for product [i] and
    [settle i] the layout outcome of product [i]. *)
Definition simulateReaction (apiKey : option string) (resp : GenResponse)
  (jsonParse : string -> option ParsedReaction) (clock : nat -> nat)
  (settle : nat -> nat -> Q * Q) : ReactionOutcome :=
  if negb (truthyStr apiKey) then ReactionRejected "API Key not found" else
  match resp with
  | GenThrows => ReactionRejected reactionFailure
  | GenText t =>
      if negb (truthyStr t) then ReactionRejected reactionFailure else
      match jsonParse (cleanFences (strOf t)) with
      | None => ReactionRejected reactionFailure
      | Some data =>
          match mapOptionI (fun index p => productMolecule p index (clock index) (settle index))
                  0 (match p_products data with Some l => l | None => [] end) with
          | None => ReactionRejected reactionFailure
          | Some products =>
              ReactionResolved (mkReactionResult
                (match p_equation data with
                 | Some e => if String.eqb e "" then "Reaction Complete" else e
                 | None => "Reaction Complete" end)
                (match p_explanation data with
                 | Some e => if String.eqb e "" then "The reactants formed new products." else e
                 | None => "The reactants formed new products." end)
                products)
          end
      end
  end.

Module ReactionLab.

Record State := mkState {
  reactants : list Molecule;
  result : option ReactionResult;
  loading : bool;
  error : option string
}.

Definition toggleReactant (rs : list Molecule) (mol : Molecule) : list Molecule :=
  if existsb (fun r => String.eqb (mol_id r) (mol_id mol)) rs
  then filter (fun r => negb (String.eqb (mol_id r) (mol_id mol))) rs
  else (rs ++ [mol])%list.

(** [handleReact] once the awaited [simulateReaction] has settled with
    [outcome]. *)
Definition handleReact (s : State) (outcome : ReactionOutcome) : State :=
  match reactants s with
  | [] => s
  | _ :: _ =>
      match outcome with
      | ReactionResolved r => mkState (reactants s) (Some r) false None
      | ReactionRejected msg =>
          mkState (reactants s) None false
            (Some (if String.eqb msg "" then "Failed to simulate reaction" else msg))
      end
  end.

Definition reset (s : State) : State := mkState [] None (loading s) None.

End ReactionLab.

(** ** Bond-list invariants the editors maintain *)

(** At most one bond joins any two atoms, in either direction. *)
Definition pairUnique (m : Molecule) : Prop :=
  forall a b, (List.length (filter (joins a b) (bonds m)) <= 1)%nat.

(** Every bond is single, double or triple. *)
Definition ordersValid (m : Molecule) : Prop :=
  forall bd, In bd (bonds m) -> (1 <= order bd <= 3)%Z.

(** The invariant of the [counts] accumulator after the atoms [seen]. *)
Definition countsInv (acc : list (string * nat)) (seen : list string) : Prop :=
  NoDup (map fst acc)
  /\ (forall k, In k (map fst acc) <-> In k seen)
  /\ (forall k c, In (k, c) acc -> c = count_occ string_dec seen k).


(** * Properties *)

Open Scope list_scope.

(** ** Facts about the list helpers *)

Lemma findIndex_none {A} (p : A -> bool) (l : list A) :
  filter p l = [] -> findIndex p l = None.
Proof.
  induction l as [|h t IH]; simpl; [reflexivity|].
  destruct (p h); [discriminate|].
  intro Ht. rewrite (IH Ht). reflexivity.
Qed.

Lemma findIndex_app_hit {A} (p : A -> bool) (l1 l2 : list A) (v : A) :
  filter p l1 = [] -> p v = true -> findIndex p (l1 ++ v :: l2) = Some (List.length l1).
Proof.
  intros H1 Hv. induction l1 as [|h t IH]; simpl in *.
  - rewrite Hv. reflexivity.
  - destruct (p h); [discriminate|]. rewrite (IH H1). reflexivity.
Qed.

Lemma nth_error_app_hit {A} (l1 l2 : list A) (v : A) :
  nth_error (l1 ++ v :: l2) (List.length l1) = Some v.
Proof. induction l1; simpl; auto. Qed.

Lemma replace_nth_app_hit {A} (l1 l2 : list A) (v w : A) :
  replace_nth (List.length l1) w (l1 ++ v :: l2) = l1 ++ w :: l2.
Proof. induction l1; simpl; [reflexivity | now rewrite IHl1]. Qed.

Lemma filter_single {A} (p : A -> bool) (l : list A) (v : A) :
  filter p l = [v] ->
  exists l1 l2, l = l1 ++ v :: l2 /\ filter p l1 = [] /\ filter p l2 = [] /\ p v = true.
Proof.
  induction l as [|h t IH]; simpl; [discriminate|].
  case_eq (p h); intros Hh E.
  - injection E as -> Ht. exists [], t. repeat split; auto.
  - destruct (IH E) as (l1 & l2 & -> & H1 & H2 & Hv).
    exists (h :: l1), l2. simpl. rewrite Hh. repeat split; auto.
Qed.

Lemma joins_refl (a b : string) (s t : string) (o : Z) :
  joins a b (mkBond s a b o) = true.
Proof. unfold joins; simpl. now rewrite !String.eqb_refl. Qed.

Lemma joins_same_ends (a b : string) (bd : BondData) (s : string) (o : Z) :
  joins a b (mkBond s (sourceAtomId bd) (targetAtomId bd) o) = joins a b bd.
Proof. reflexivity. Qed.

(** ** The add-or-cycle operation of the cycling renderer *)

Definition bondsBetween (m : Molecule) (a b : string) : list BondData :=
  filter (joins a b) (bonds m).

Definition cycled (bd : BondData) : BondData :=
  mkBond (bond_id bd) (sourceAtomId bd) (targetAtomId bd)
    (CyclingRenderer.cycleOrder (order bd)).

Lemma addOrCycleBond_fresh (m : Molecule) (a b : string) (now : nat) :
  bondsBetween m a b = [] ->
  bondsBetween (CyclingRenderer.addOrCycleBond m a b now) a b
  = [mkBond ("bond-" ++ string_of_nat now) a b 1].
Proof.
  unfold bondsBetween, CyclingRenderer.addOrCycleBond. intro H0.
  rewrite (findIndex_none _ _ H0). simpl.
  rewrite filter_app, H0. simpl. now rewrite joins_refl.
Qed.

Lemma addOrCycleBond_single (m : Molecule) (a b : string) (now : nat) (bd : BondData) :
  bondsBetween m a b = [bd] ->
  bondsBetween (CyclingRenderer.addOrCycleBond m a b now) a b = [cycled bd].
Proof.
  unfold bondsBetween, CyclingRenderer.addOrCycleBond. intro H0.
  destruct (filter_single _ _ _ H0) as (l1 & l2 & E & H1 & H2 & Hv).
  rewrite E, (findIndex_app_hit _ _ _ _ H1 Hv), nth_error_app_hit. simpl.
  rewrite replace_nth_app_hit, filter_app, H1. simpl.
  rewrite joins_same_ends, Hv, H2. reflexivity.
Qed.

(** C2: starting with no bond between [a] and [b], four successive
    add-or-cycle operations on the pair leave exactly one bond between
    them, of order 1, then 2, then 3, then 1 again. *)
Theorem addOrCycleBond_four_times (m : Molecule) (a b : string)
  (t1 t2 t3 t4 : nat) :
  bondsBetween m a b = [] ->
  let m1 := CyclingRenderer.addOrCycleBond m a b t1 in
  let m2 := CyclingRenderer.addOrCycleBond m1 a b t2 in
  let m3 := CyclingRenderer.addOrCycleBond m2 a b t3 in
  let m4 := CyclingRenderer.addOrCycleBond m3 a b t4 in
  map order (bondsBetween m1 a b) = [1%Z]
  /\ map order (bondsBetween m2 a b) = [2%Z]
  /\ map order (bondsBetween m3 a b) = [3%Z]
  /\ map order (bondsBetween m4 a b) = [1%Z].
Proof.
  intros H0 m1 m2 m3 m4.
  pose proof (addOrCycleBond_fresh m a b t1 H0) as E1.
  pose proof (addOrCycleBond_single m1 a b t2 _ E1) as E2.
  pose proof (addOrCycleBond_single m2 a b t3 _ E2) as E3.
  pose proof (addOrCycleBond_single m3 a b t4 _ E3) as E4.
  subst m1 m2 m3 m4. rewrite E1, E2, E3, E4.
  repeat split; reflexivity.
Qed.

Lemma addOrCycleBond_four_times_witness :
  bondsBetween (mkMolecule "m" "n" [mkAtom "A" "C" 0 0; mkAtom "B" "O" 0 0] []) "A" "B" = []
  /\ map order (bondsBetween
       (CyclingRenderer.addOrCycleBond
          (CyclingRenderer.addOrCycleBond
             (CyclingRenderer.addOrCycleBond
                (CyclingRenderer.addOrCycleBond
                   (mkMolecule "m" "n" [mkAtom "A" "C" 0 0; mkAtom "B" "O" 0 0] [])
                   "A" "B" 1) "A" "B" 2) "A" "B" 3) "A" "B" 4) "A" "B") = [1%Z].
Proof.
  split; [reflexivity|].
  apply (addOrCycleBond_four_times
           (mkMolecule "m" "n" [mkAtom "A" "C" 0 0; mkAtom "B" "O" 0 0] [])
           "A" "B" 1 2 3 4).
  reflexivity.
Defined.

(** C4: in Build mode, with [a] the pending bond source and a click on a
    different atom [b], the bond between them is created or cycled, the
    change is reported to the builder, and [a] stays the pending source;
    a second click on [b] then cycles the order of that same bond again. *)
Theorem click_keeps_pending_source (m : Molecule) (a b : string) (now now' : nat) :
  a <> "" -> a <> b ->
  let '(v1, cbs1) := CyclingRenderer.handleAtomClick true Build now
                        (mkViewer m (Some a) false) b in
  let '(v2, cbs2) := CyclingRenderer.handleAtomClick true Build now' v1 b in
  selectedAtomId v1 = Some a
  /\ internalMolecule v1 = CyclingRenderer.addOrCycleBond m a b now
  /\ cbs1 = [onUpdate (internalMolecule v1)]
  /\ selectedAtomId v2 = Some a
  /\ internalMolecule v2 = CyclingRenderer.addOrCycleBond (internalMolecule v1) a b now'
  /\ (forall bd, bondsBetween (internalMolecule v1) a b = [bd] ->
        bondsBetween (internalMolecule v2) a b = [cycled bd]).
Proof.
  intros Ha Hab.
  assert (Ea : String.eqb a "" = false) by (apply String.eqb_neq; exact Ha).
  assert (Eab : String.eqb a b = false) by (apply String.eqb_neq; exact Hab).
  unfold CyclingRenderer.handleAtomClick; simpl. rewrite Ea, Eab. simpl.
  rewrite Ea, Eab. simpl.
  repeat split; try reflexivity.
  apply addOrCycleBond_single.
Qed.

Lemma click_keeps_pending_source_witness :
  "A" <> "" /\ "A" <> "B" /\
  selectedAtomId (fst (CyclingRenderer.handleAtomClick true Build 7
     (mkViewer (mkMolecule "m" "n" [mkAtom "A" "C" 0 0; mkAtom "B" "O" 0 0] [])
        (Some "A") false) "B")) = Some "A".
Proof.
  split; [discriminate|]. split; [discriminate|].
  pose proof (click_keeps_pending_source
                (mkMolecule "m" "n" [mkAtom "A" "C" 0 0; mkAtom "B" "O" 0 0] [])
                "A" "B" 7 8 ltac:(discriminate) ltac:(discriminate)) as W.
  simpl in W. simpl. destruct W as [W _]. exact W.
Defined.

(** ** Builder sessions *)

(** The session of the divergence: add C and O, select C, erase C,
    return to Build mode and click O. *)
Definition staleSelectionEvents : list Event :=
  [AddAtom ElementType.C 1 0 0; AddAtom ElementType.O 2 0 0;
   TapAtom "atom-1" 3; SetMode Erase; TapAtom "atom-1" 4;
   SetMode Build; TapAtom "atom-2" 5].

(** C1: the selection survives the deletion of the selected atom, and the
    next click in Build mode adds a bond from the deleted atom: the run
    ends with bond [bond-5] from ["atom-1"], which is no longer among the
    atoms, so the molecule breaks the invariants. *)
Theorem stale_selection_dangling_bond :
  let s := run initSession staleSelectionEvents in
  atomIds (currentMolecule s) = ["atom-2"]
  /\ bonds (currentMolecule s) = [mkBond "bond-5" "atom-1" "atom-2" 1]
  /\ ~ graphInvariant (currentMolecule s).
Proof.
  vm_compute. split; [reflexivity|]. split; [reflexivity|].
  intros [Hends _].
  destruct (Hends _ (or_introl eq_refl)) as [Hsrc _].
  destruct Hsrc as [E | []]. discriminate E.
Qed.

(** ** Sanitisation *)

Lemma In_mapi_from {A B} (f : nat -> A -> B) (i : nat) (l : list A) (y : B) :
  In y (mapi_from f i l) -> exists j v, In v l /\ y = f j v.
Proof.
  revert i. induction l as [|h t IH]; simpl; intros i Hy; [contradiction|].
  destruct Hy as [<- | Hy].
  - exists i, h. auto.
  - destruct (IH _ Hy) as (j & v & Hv & ->). exists j, v. auto.
Qed.

Lemma length_mapi_from {A B} (f : nat -> A -> B) (i : nat) (l : list A) :
  List.length (mapi_from f i l) = List.length l.
Proof. revert i; induction l; simpl; auto. Qed.

Lemma length_filter_le {A} (p : A -> bool) (l : list A) :
  (List.length (filter p l) <= List.length l)%nat.
Proof. induction l; simpl; [lia|]. destruct (p a); simpl; lia. Qed.

Lemma setHas_In (ids : list string) (o : option string) :
  setHas ids o = true -> In (strOf o) ids.
Proof.
  destruct o as [s|]; simpl; [|discriminate].
  intro H. apply existsb_exists in H as (s' & Hin & E).
  apply String.eqb_eq in E. subst. exact Hin.
Qed.

Lemma sanitize_atomIds (p : GeminiMolecule) (index now : nat) :
  atomIds (sanitizeProduct p index now)
  = map (fun a => strOf (g_id a))
        (filter validAtom (match g_atoms p with Some l => l | None => [] end)).
Proof. unfold atomIds, sanitizeProduct; simpl. now rewrite map_map. Qed.

Definition inputAtoms (p : GeminiMolecule) : list GeminiAtom :=
  match g_atoms p with Some l => l | None => [] end.

Definition inputBonds (p : GeminiMolecule) : list GeminiBond :=
  match g_bonds p with Some l => l | None => [] end.

Lemma sanitize_bond_ends (p : GeminiMolecule) (index now : nat) (b : BondData) :
  In b (bonds (sanitizeProduct p index now)) ->
  In (sourceAtomId b) (atomIds (sanitizeProduct p index now))
  /\ In (targetAtomId b) (atomIds (sanitizeProduct p index now))
  /\ order b <> 0%Z.
Proof.
  rewrite sanitize_atomIds. unfold sanitizeProduct; simpl. intro Hb.
  apply In_mapi_from in Hb as (j & gb & Hgb & ->). simpl.
  apply filter_In in Hgb as [_ Hhas]. apply andb_prop in Hhas as [Hs Ht].
  split; [now apply setHas_In|]. split; [now apply setHas_In|].
  unfold orderOr1. destruct (g_order gb) as [z|]; [|discriminate].
  destruct (Z.eqb_spec z 0); [discriminate | assumption].
Qed.

(** C5: every bond of the sanitised molecule joins two retained atom
    ids, and sanitisation never adds atoms or bonds. *)
Theorem sanitize_sound (p : GeminiMolecule) (index now : nat) :
  let m := sanitizeProduct p index now in
  (forall b, In b (bonds m) ->
     In (sourceAtomId b) (atomIds m) /\ In (targetAtomId b) (atomIds m))
  /\ (List.length (atoms m) <= List.length (inputAtoms p))%nat
  /\ (List.length (bonds m) <= List.length (inputBonds p))%nat.
Proof.
  intro m. split; [|split].
  - intros b Hb. destruct (sanitize_bond_ends p index now b Hb) as (? & ? & _). auto.
  - subst m; unfold sanitizeProduct, inputAtoms; simpl.
    rewrite length_map. apply length_filter_le.
  - subst m; unfold sanitizeProduct, inputBonds; simpl.
    unfold mapi. rewrite length_mapi_from. apply length_filter_le.
Qed.





(** ** Layout *)



Lemma clampCoord_bounds (dimension v : Q) :
  60 <= dimension -> 30 <= clampCoord dimension v /\ clampCoord dimension v <= dimension - 30.
Proof.
  intro Hd. unfold clampCoord. split.
  - apply Q.le_max_l.
  - apply Q.max_lub; [lra | apply Q.le_min_l].
Qed.

(** One atom, laid out in a canvas 40 wide. *)
Definition singleCarbon : Molecule := mkMolecule "m" "methane" [mkAtom "1" "C" 0 0] [].

(** C6, as stated, fails: in a canvas of width 40 the clamp puts x at
    [Math.max(30, Math.min(10, x))] = 30, outside [30, 10]. *)
Lemma layout_narrow_canvas_out_of_bounds :
  exists m', autoLayoutMolecule singleCarbon 40 400 (fun _ => (0, 0)) = Some m'
  /\ exists a, In a (atoms m') /\ ~ (30 <= x a /\ x a <= 40 - 30).
Proof.
  eexists. split; [reflexivity|].
  eexists. split; [left; reflexivity|].
  intros [_ Hle]. vm_compute in Hle. apply Hle. reflexivity.
Qed.

(** C6, amended: on a canvas at least 60 by 60, every coordinate the
    batch layout returns lies within [30, W-30] x [30, H-30], whatever
    positions the simulation settles on. *)
Theorem layout_bounded (m : Molecule) (W Hh : Q) (settle : nat -> Q * Q) (m' : Molecule) :
  60 <= W -> 60 <= Hh ->
  autoLayoutMolecule m W Hh settle = Some m' ->
  forall a, In a (atoms m') -> (30 <= x a /\ x a <= W - 30) /\ (30 <= y a /\ y a <= Hh - 30).
Proof.
  intros HW HH. unfold autoLayoutMolecule.
  destruct (atoms m) as [|a0 rest] eqn:Ea.
  - intros E; injection E as <-. rewrite Ea. intros a [].
  - destruct (linksResolve m); [|discriminate].
    intro E; injection E as <-. intros a Ha. cbn [atoms] in Ha. unfold mapi in Ha.
    apply In_mapi_from in Ha as (j & n & _ & ->). simpl.
    split; apply clampCoord_bounds; assumption.
Qed.

Lemma layout_bounded_witness :
  60 <= 600 /\ 60 <= 400 /\
  autoLayoutMolecule singleCarbon 600 400 (fun _ => (0, 0))
    = Some (mkMolecule "m" "methane" [mkAtom "1" "C" (clampCoord 600 0) (clampCoord 400 0)] [])
  /\ 30 <= clampCoord 600 0.
Proof.
  assert (Hs : autoLayoutMolecule singleCarbon 600 400 (fun _ => (0, 0))
    = Some (mkMolecule "m" "methane" [mkAtom "1" "C" (clampCoord 600 0) (clampCoord 400 0)] []))
    by reflexivity.
  split; [lra|]. split; [lra|]. split; [exact Hs|].
  refine (proj1 (proj1 (layout_bounded singleCarbon 600 400 (fun _ => (0, 0)) _
            ltac:(lra) ltac:(lra) Hs _ (or_introl eq_refl)))).
Defined.



(** ** Cascade deletion *)

(** A bond participates in [atomId] when either end names it. *)
Definition references (atomId : string) (b : BondData) : bool :=
  String.eqb (sourceAtomId b) atomId || String.eqb (targetAtomId b) atomId.

Lemma length_filter_split {A} (p : A -> bool) (l : list A) :
  List.length l = (List.length (filter (fun v => negb (p v)) l)
                   + List.length (filter p l))%nat.
Proof. induction l as [|h t IH]; simpl; [reflexivity|]. destruct (p h); simpl; lia. Qed.

(** C8: deleting an atom removes every atom with its id and exactly the
    bonds that reference it, [N] of them, and keeps every other atom and
    bond unchanged and in order. *)
Theorem handleAtomDelete_cascade (m : Molecule) (atomId : string) :
  let m' := handleAtomDelete m atomId in
  let N := List.length (filter (references atomId) (bonds m)) in
  ~ In atomId (atomIds m')
  /\ (forall a, In a (atoms m') <-> In a (atoms m) /\ atom_id a <> atomId)
  /\ (forall b, In b (bonds m') <-> In b (bonds m) /\ references atomId b = false)
  /\ List.length (bonds m) = (List.length (bonds m') + N)%nat
  /\ atoms m' = filter (fun a => negb (String.eqb (atom_id a) atomId)) (atoms m)
  /\ bonds m' = filter (fun b => negb (references atomId b)) (bonds m).
Proof.
  intros m' N.
  assert (Eb : bonds m' = filter (fun b => negb (references atomId b)) (bonds m)).
  { subst m'. unfold handleAtomDelete, references; simpl.
    apply filter_ext. intro b. now rewrite negb_orb. }
  split; [|split; [|split; [|split; [|split]]]].
  - unfold atomIds. subst m'; simpl. intro Hin.
    apply in_map_iff in Hin as (a & Ea & Ha). apply filter_In in Ha as [_ Hn].
    rewrite Ea, String.eqb_refl in Hn. discriminate.
  - intro a. subst m'; simpl. rewrite filter_In, negb_true_iff, String.eqb_neq.
    reflexivity.
  - intro b. rewrite Eb, filter_In, negb_true_iff. reflexivity.
  - rewrite Eb. subst N. apply length_filter_split.
  - reflexivity.
  - exact Eb.
Qed.

(** ** Identification *)

(** A water molecule built in the editor. *)
Definition water : Molecule :=
  mkMolecule "w" "Water" [mkAtom "1" "O" 0 0; mkAtom "2" "H" 0 0; mkAtom "3" "H" 0 0] [].




(** ** Element palette *)

(** C10: [ELEMENT_COLORS] has no entry for seven of the fifteen elements,
    so the Builder's palette reads [style.bg] on [undefined] for [P] and
    rendering the palette throws. *)
Theorem palette_missing_styles :
  filter (fun e => match lookupColor e with None => true | Some _ => false end)
         element_values
  = [ElementType.P; ElementType.Mg; ElementType.K; ElementType.Ca;
     ElementType.Fe; ElementType.Br; ElementType.I]
  /\ paletteButton ElementType.P = None
  /\ renderPalette = None.
Proof. vm_compute. repeat split; reflexivity. Qed.

(** * Further properties of the builder, viewer and reaction flow *)

(** ** Undo history *)

Lemma handleUndo_after_push (m c : Molecule) (h : list Molecule) (md : Mode) :
  Builder.handleUndo (Builder.mkState m (h ++ [c]) md) = Builder.mkState c h md.
Proof.
  unfold Builder.handleUndo; simpl. rewrite rev_app_distr. simpl.
  now rewrite removelast_last.
Qed.

(** Every structural edit of the builder (adding an atom, deleting an atom
    or a bond, clearing the canvas) is one undo step: undo right after it
    restores the molecule and the history as they were. Undo with an empty
    history changes nothing. *)
Theorem builder_undo_restores (s : Builder.State) (el : ElementType) (now : nat)
  (jx jy : Q) (atomId bondId : string) :
  Builder.handleUndo (Builder.addAtom s el now jx jy)
    = Builder.mkState (Builder.currentMolecule s) (Builder.history s) Build
  /\ Builder.handleUndo (Builder.handleAtomDelete s atomId) = s
  /\ Builder.handleUndo (Builder.handleBondDelete s bondId) = s
  /\ Builder.handleUndo (Builder.clearCanvas s now) = s
  /\ (Builder.history s = [] -> Builder.handleUndo s = s).
Proof.
  destruct s as [cur h md].
  unfold Builder.addAtom, Builder.handleAtomDelete, Builder.handleBondDelete,
    Builder.clearCanvas, Builder.saveHistory; simpl.
  rewrite !handleUndo_after_push. repeat split; try reflexivity.
  intro Eh. subst h. reflexivity.
Qed.

Lemma builder_undo_restores_witness :
  Builder.history (Builder.mkState emptyMolecule [] Build) = []
  /\ Builder.handleUndo (Builder.mkState emptyMolecule [] Build)
     = Builder.mkState emptyMolecule [] Build.
Proof.
  split; [reflexivity|].
  exact (proj2 (proj2 (proj2 (proj2
    (builder_undo_restores (Builder.mkState emptyMolecule [] Build)
       ElementType.C 0 0 0 "" "")))) eq_refl).
Defined.

(** An update from the renderer that keeps the atom and bond counts (a
    drag, or a change of bond order) adds no undo step; one that changes
    a count is an undo step that restores the previous molecule. *)
Theorem builder_update_history (s : Builder.State) (newMolecule : Molecule) :
  (List.length (atoms newMolecule) = List.length (atoms (Builder.currentMolecule s)) ->
   List.length (bonds newMolecule) = List.length (bonds (Builder.currentMolecule s)) ->
   Builder.handleMoleculeUpdate s newMolecule
     = Builder.mkState newMolecule (Builder.history s) (Builder.mode s))
  /\ ((List.length (atoms newMolecule) <> List.length (atoms (Builder.currentMolecule s))
       \/ List.length (bonds newMolecule) <> List.length (bonds (Builder.currentMolecule s))) ->
      Builder.currentMolecule (Builder.handleMoleculeUpdate s newMolecule) = newMolecule
      /\ Builder.handleUndo (Builder.handleMoleculeUpdate s newMolecule) = s).
Proof.
  destruct s as [cur h md]; simpl. unfold Builder.handleMoleculeUpdate; simpl. split.
  - intros Ea Eb. rewrite Ea, Eb, !Nat.eqb_refl. reflexivity.
  - intros Hd.
    assert (E : (Nat.eqb (List.length (atoms newMolecule)) (List.length (atoms cur))
                 && Nat.eqb (List.length (bonds newMolecule)) (List.length (bonds cur)))
                = false).
    { destruct Hd as [Hd | Hd]; apply Nat.eqb_neq in Hd; rewrite Hd;
        [reflexivity | apply andb_false_r]. }
    rewrite E. unfold Builder.saveHistory; simpl. split; [reflexivity|].
    apply handleUndo_after_push.
Qed.

Lemma builder_update_history_witness :
  List.length (atoms (with_atoms emptyMolecule [mkAtom "a" "C" 0 0]))
    <> List.length (atoms (Builder.currentMolecule (Builder.mkState emptyMolecule [] Build)))
  /\ Builder.handleUndo (Builder.handleMoleculeUpdate (Builder.mkState emptyMolecule [] Build)
       (with_atoms emptyMolecule [mkAtom "a" "C" 0 0]))
     = Builder.mkState emptyMolecule [] Build.
Proof.
  assert (Hd : List.length (atoms (with_atoms emptyMolecule [mkAtom "a" "C" 0 0]))
    <> List.length (atoms (Builder.currentMolecule (Builder.mkState emptyMolecule [] Build))))
    by discriminate.
  split; [exact Hd|].
  exact (proj2 (proj2 (builder_update_history (Builder.mkState emptyMolecule [] Build)
            (with_atoms emptyMolecule [mkAtom "a" "C" 0 0])) (or_introl Hd))).
Defined.

Lemma autoLayout_ids_bonds (m m' : Molecule) (W Hh : Q) (settle : nat -> Q * Q) :
  autoLayoutMolecule m W Hh settle = Some m' ->
  atomIds m' = atomIds m /\ bonds m' = bonds m.
Proof.
  unfold autoLayoutMolecule. destruct (atoms m) as [|a0 rest] eqn:Ea.
  - intro E; injection E as <-. auto.
  - destruct (linksResolve m); [|discriminate].
    intro E; injection E as <-. split; [|reflexivity].
    unfold atomIds. cbn [atoms]. try rewrite Ea. unfold mapi.
    generalize (a0 :: rest) 0%nat. intro l.
    induction l as [|h t IH]; intro i; simpl; [reflexivity|].
    f_equal. apply IH.
Qed.

(** Auto layout on an empty canvas does nothing and records no undo
    step; on a non-empty canvas a layout that succeeds keeps the bonds and
    atom ids, and undo restores the molecule before it. *)
Theorem builder_autolayout (s : Builder.State) (settle : nat -> Q * Q) :
  (atoms (Builder.currentMolecule s) = [] -> Builder.handleAutoLayout s settle = Some s)
  /\ (forall s', atoms (Builder.currentMolecule s) <> [] ->
        Builder.handleAutoLayout s settle = Some s' ->
        bonds (Builder.currentMolecule s') = bonds (Builder.currentMolecule s)
        /\ atomIds (Builder.currentMolecule s') = atomIds (Builder.currentMolecule s)
        /\ Builder.handleUndo s' = s).
Proof.
  destruct s as [cur h md]; unfold Builder.handleAutoLayout; simpl. split.
  - intro E. now rewrite E.
  - intros s' Hne. destruct (atoms cur) eqn:Ea; [contradiction|].
    destruct (autoLayoutMolecule cur CANVAS_width CANVAS_height settle) as [f|] eqn:El;
      [|discriminate].
    intro E; injection E as <-. simpl.
    destruct (autoLayout_ids_bonds _ _ _ _ _ El) as [Hi Hb].
    repeat split; auto. unfold Builder.saveHistory; simpl. apply handleUndo_after_push.
Qed.

Lemma builder_autolayout_witness :
  atoms (Builder.currentMolecule (Builder.mkState water [] Build)) <> []
  /\ exists s', Builder.handleAutoLayout (Builder.mkState water [] Build) (fun _ => (0, 0))
                = Some s'
       /\ Builder.handleUndo s' = Builder.mkState water [] Build.
Proof.
  assert (Hne : atoms (Builder.currentMolecule (Builder.mkState water [] Build)) <> [])
    by discriminate.
  split; [exact Hne|].
  eexists. split; [reflexivity|].
  exact (proj2 (proj2 (proj2 (builder_autolayout (Builder.mkState water [] Build) (fun _ => (0, 0)))
                         _ Hne eq_refl))).
Defined.

(** ** Saving and searching *)

Lemma find_mol_id_NoDup (saved : list Molecule) (o : Molecule) :
  NoDup (map mol_id saved) -> In o saved ->
  find (fun m => String.eqb (mol_id m) (mol_id o)) saved = Some o.
Proof.
  induction saved as [|a t IH]; simpl; [contradiction|].
  intros Hnd Hin. inversion Hnd as [|x l Hnot Hnd' E]; subst.
  destruct (String.eqb (mol_id a) (mol_id o)) eqn:E.
  - apply String.eqb_eq in E. destruct Hin as [<-|Hin]; [reflexivity|].
    exfalso. apply Hnot. rewrite E. apply in_map. exact Hin.
  - destruct Hin as [<-|Hin]; [now rewrite String.eqb_refl in E|]. auto.
Qed.

Lemma find_mol_id_none (saved : list Molecule) (i : string) :
  (forall o, In o saved -> mol_id o <> i) ->
  find (fun m => String.eqb (mol_id m) i) saved = None.
Proof.
  induction saved as [|a t IH]; simpl; [reflexivity|]. intro H.
  destruct (String.eqb (mol_id a) i) eqn:E.
  - apply String.eqb_eq in E. exfalso. exact (H a (or_introl eq_refl) E).
  - apply IH. intros o Ho. apply H. now right.
Qed.

(** Saving an empty canvas does nothing. Saving a non-empty molecule
    hands over its name, atoms and bonds unchanged, under either its own
    id or a fresh [mol-<now>] id, and clears the canvas; undo then brings
    the saved molecule back onto the canvas. *)
Theorem builder_save (s : Builder.State) (saved : list Molecule) (now now' : nat) :
  (atoms (Builder.currentMolecule s) = [] -> Builder.handleSave s saved now now' = (None, s))
  /\ (atoms (Builder.currentMolecule s) <> [] ->
      exists m, fst (Builder.handleSave s saved now now') = Some m
        /\ name m = name (Builder.currentMolecule s)
        /\ atoms m = atoms (Builder.currentMolecule s)
        /\ bonds m = bonds (Builder.currentMolecule s)
        /\ (mol_id m = mol_id (Builder.currentMolecule s)
            \/ mol_id m = ("mol-" ++ string_of_nat now)%string)
        /\ atoms (Builder.currentMolecule (snd (Builder.handleSave s saved now now'))) = []
        /\ bonds (Builder.currentMolecule (snd (Builder.handleSave s saved now now'))) = []
        /\ Builder.currentMolecule (Builder.handleUndo (snd (Builder.handleSave s saved now now')))
           = Builder.currentMolecule s).
Proof.
  destruct s as [cur h md]; unfold Builder.handleSave; simpl. split.
  - intro E. now rewrite E.
  - intro Hne. destruct (atoms cur) as [|a rest] eqn:Ea; [contradiction|].
    set (fnd := find _ saved).
    assert (Hu : Builder.currentMolecule (Builder.handleUndo (Builder.clearCanvas
                   (Builder.mkState cur h md) now')) = cur).
    { unfold Builder.clearCanvas, Builder.saveHistory; simpl.
      now rewrite handleUndo_after_push. }
    destruct fnd as [original|].
    + destruct (negb (String.eqb (name original) (name cur))).
      * eexists; split; [reflexivity|]. simpl. rewrite Ea. repeat split; auto.
      * eexists; split; [reflexivity|]. rewrite Ea. repeat split; auto.
    + eexists; split; [reflexivity|]. simpl. rewrite Ea. repeat split; auto.
Qed.

Lemma builder_save_witness :
  atoms (Builder.currentMolecule (Builder.mkState water [] Build)) <> []
  /\ exists m, fst (Builder.handleSave (Builder.mkState water [] Build) [] 7 8) = Some m
     /\ name m = "Water".
Proof.
  assert (Hne : atoms (Builder.currentMolecule (Builder.mkState water [] Build)) <> [])
    by discriminate.
  split; [exact Hne|].
  destruct (proj2 (builder_save (Builder.mkState water [] Build) [] 7 8) Hne)
    as [m [Hm [Hn _]]].
  exists m. split; [exact Hm | exact Hn].
Defined.

(** When the saved molecules have distinct ids, saving a molecule whose
    id is already saved under the same name overwrites it (the id is
    kept); under another name, or when its id is not saved at all, it is
    saved as a new molecule with the id [mol-<now>]. *)
Theorem builder_save_ids (s : Builder.State) (saved : list Molecule) (now now' : nat)
  (Hne : atoms (Builder.currentMolecule s) <> [])
  (Hnd : NoDup (map mol_id saved)) :
  (forall o, In o saved -> mol_id o = mol_id (Builder.currentMolecule s) ->
     name o = name (Builder.currentMolecule s) ->
     fst (Builder.handleSave s saved now now') = Some (Builder.currentMolecule s))
  /\ (forall o, In o saved -> mol_id o = mol_id (Builder.currentMolecule s) ->
     name o <> name (Builder.currentMolecule s) ->
     fst (Builder.handleSave s saved now now')
       = Some (Builder.with_id (Builder.currentMolecule s) (("mol-" ++ string_of_nat now)%string)))
  /\ ((forall o, In o saved -> mol_id o <> mol_id (Builder.currentMolecule s)) ->
     fst (Builder.handleSave s saved now now')
       = Some (Builder.with_id (Builder.currentMolecule s) (("mol-" ++ string_of_nat now)%string))).
Proof.
  destruct s as [cur h md]; simpl in *. unfold Builder.handleSave; simpl.
  destruct (atoms cur) as [|a rest] eqn:Ea; [contradiction|].
  repeat split.
  - intros o Ho Hi Hn. rewrite <- Hi, (find_mol_id_NoDup _ _ Hnd Ho).
    rewrite Hn, String.eqb_refl. reflexivity.
  - intros o Ho Hi Hn. rewrite <- Hi, (find_mol_id_NoDup _ _ Hnd Ho).
    apply String.eqb_neq in Hn. rewrite Hn. reflexivity.
  - intro Hnone. rewrite (find_mol_id_none _ _ Hnone). reflexivity.
Qed.

Lemma builder_save_ids_witness :
  atoms (Builder.currentMolecule (Builder.mkState water [] Build)) <> []
  /\ NoDup (map mol_id [water])
  /\ fst (Builder.handleSave (Builder.mkState water [] Build) [water] 7 8) = Some water.
Proof.
  assert (Hne : atoms (Builder.currentMolecule (Builder.mkState water [] Build)) <> [])
    by discriminate.
  assert (Hnd : NoDup (map mol_id [water])) by (constructor; [simpl; tauto | constructor]).
  split; [exact Hne|]. split; [exact Hnd|].
  exact (proj1 (builder_save_ids (Builder.mkState water [] Build) [water] 7 8 Hne Hnd)
           water (or_introl eq_refl) eq_refl eq_refl).
Defined.








(** ** Zoom, pan and drag *)

Lemma zoom_scale_bounds (factor : Q) (t : View.Transform) :
  1 # 5 <= Qmax (1 # 5) (Qmin 5 (View.k t * factor)) <= 5.
Proof.
  split; [apply Q.le_max_l|].
  apply Q.max_lub; [unfold Qle; simpl; lia | apply Q.le_min_l].
Qed.

(** A zoom keeps the scale within [0.2, 5] and keeps the model point
    under the centre of the viewer where it was. *)
Theorem view_zoom (width height factor : Q) (t : View.Transform) :
  let t' := View.handleZoom width height factor t in
  1 # 5 <= View.k t' <= 5
  /\ (width / 2 - View.tx t') / View.k t' == (width / 2 - View.tx t) / View.k t
  /\ (height / 2 - View.ty t') / View.k t' == (height / 2 - View.ty t) / View.k t.
Proof.
  cbn zeta. unfold View.handleZoom; cbn [View.k View.tx View.ty].
  destruct (zoom_scale_bounds factor t) as [Hlo Hhi].
  set (nk := Qmax (1 # 5) (Qmin 5 (View.k t * factor))) in *.
  assert (Hnz : ~ nk == 0) by (intro E; rewrite E in Hlo; unfold Qle in Hlo; simpl in Hlo; lia).
  generalize ((width / 2 - View.tx t) / View.k t) ((height / 2 - View.ty t) / View.k t).
  intros wx wy. repeat split; [exact Hlo | exact Hhi | field; exact Hnz | field; exact Hnz].
Qed.

(** Within the scale range, a wheel step down ([deltaY > 0]) never
    zooms in and a wheel step up never zooms out. *)
Theorem view_wheel_direction (width height deltaY : Q) (t : View.Transform)
  (Hk : 1 # 5 <= View.k t <= 5) :
  (0 < deltaY -> View.k (View.handleWheel width height deltaY t) <= View.k t)
  /\ (deltaY <= 0 -> View.k t <= View.k (View.handleWheel width height deltaY t)).
Proof.
  unfold View.handleWheel, View.handleZoom; cbn [View.k]. destruct Hk as [Hlo Hhi].
  split; intro Hd; destruct (Qlt_le_dec 0 deltaY) as [Hp|Hp]; try lra.
  - apply Q.max_lub; [exact Hlo|].
    apply Qle_trans with (View.k t * (9 # 10)); [apply Q.le_min_r | lra].
  - apply Qle_trans with (Qmin 5 (View.k t * (11 # 10))); [|apply Q.le_max_r].
    apply Q.min_glb; [exact Hhi | lra].
Qed.

Lemma view_wheel_direction_witness :
  1 # 5 <= View.k View.identity <= 5 /\ 0 < 1
  /\ View.k (View.handleWheel 600 400 1 View.identity) <= View.k View.identity.
Proof.
  assert (Hk : 1 # 5 <= View.k View.identity <= 5) by (split; unfold Qle; simpl; lia).
  assert (Hd : 0 < 1) by reflexivity.
  split; [exact Hk|]. split; [exact Hd|].
  exact (proj1 (view_wheel_direction 600 400 1 View.identity Hk) Hd).
Defined.

Lemma last_cons_default {A} (q : A) (rest : list A) (d : A) :
  last (q :: rest) d = last rest q.
Proof.
  revert q d. induction rest as [|r rest IH]; intros q d; [reflexivity|].
  change (last (r :: rest) d = last (r :: rest) q). rewrite !IH. reflexivity.
Qed.

Lemma panMove_fold (moves : list (Q * Q)) (t : View.Transform) (p : Q * Q) :
  let r := fold_left View.panMove moves (View.mkPan t true (Some p)) in
  View.isPanning r = true /\ View.lastPan r = Some (last moves p)
  /\ View.k (View.transform r) = View.k t
  /\ View.tx (View.transform r) == View.tx t + (fst (last moves p) - fst p)
  /\ View.ty (View.transform r) == View.ty t + (snd (last moves p) - snd p).
Proof.
  revert t p. induction moves as [|q rest IH]; intros t [px py].
  - cbn. repeat split; lra.
  - cbn [fold_left].
    change (View.panMove (View.mkPan t true (Some (px, py))) q) with
      (View.mkPan (View.mkTransform (View.k t) (View.tx t + (fst q - px))
                     (View.ty t + (snd q - py))) true (Some q)).
    destruct (IH (View.mkTransform (View.k t) (View.tx t + (fst q - px))
                    (View.ty t + (snd q - py))) q) as [H1 [H2 [H3 [H4 H5]]]].
    cbn [View.k View.tx View.ty] in *.
    assert (Hl : last (q :: rest) (px, py) = last rest q).
    { apply last_cons_default. }
    rewrite Hl. repeat split; auto.
    + rewrite H4. cbn [fst]. lra.
    + rewrite H5. cbn [snd]. lra.
Qed.

(** A background pan gesture (pointer down at [p0], moves, pointer up)
    shifts the view by the distance from [p0] to the last pointer
    position, whatever the path, leaves the scale as it was, and ends the
    pan: later pointer moves do not pan. *)
Theorem view_pan_gesture (s : View.PanState) (p0 : Q * Q) (moves : list (Q * Q)) :
  let r := View.panGesture s p0 moves in
  View.k (View.transform r) = View.k (View.transform s)
  /\ View.tx (View.transform r) == View.tx (View.transform s) + (fst (last moves p0) - fst p0)
  /\ View.ty (View.transform r) == View.ty (View.transform s) + (snd (last moves p0) - snd p0)
  /\ View.isPanning r = false /\ View.lastPan r = None
  /\ (forall p, View.panMove r p = r).
Proof.
  cbn zeta. unfold View.panGesture, View.handleSvgPointerDown.
  destruct (panMove_fold moves (View.transform s) p0) as [_ [_ [H3 [H4 H5]]]].
  unfold View.handlePointerUp. cbn [View.transform View.isPanning View.lastPan].
  repeat split; auto.
Qed.

(** An atom dragged to the pointer is drawn under the pointer: the
    [translate(x,y) scale(k)] group maps the model point computed from the
    pointer back to the pointer position, for any non-zero scale. *)
Theorem view_drag_follows_pointer (t : View.Transform) (rawX rawY : Q)
  (Hk : ~ View.k t == 0) :
  fst (View.toScreen t (View.dragTarget t rawX rawY)) == rawX
  /\ snd (View.toScreen t (View.dragTarget t rawX rawY)) == rawY.
Proof.
  unfold View.toScreen, View.dragTarget; cbn [fst snd]. split; field; exact Hk.
Qed.

Lemma view_drag_follows_pointer_witness :
  ~ View.k (View.handleZoom 600 400 (11 # 10) View.identity) == 0
  /\ fst (View.toScreen (View.handleZoom 600 400 (11 # 10) View.identity)
          (View.dragTarget (View.handleZoom 600 400 (11 # 10) View.identity) 50 70)) == 50.
Proof.
  assert (Hk : ~ View.k (View.handleZoom 600 400 (11 # 10) View.identity) == 0)
    by (vm_compute; discriminate).
  split; [exact Hk|].
  exact (proj1 (view_drag_follows_pointer _ 50 70 Hk)).
Defined.

(** ** The reaction flow *)




Lemma mapOptionI_some_all {A B} (f : nat -> A -> option B) (i : nat) (l : list A)
  (l' : list B) : mapOptionI f i l = Some l' -> forall y, In y l' -> exists j x, f j x = Some y.
Proof.
  revert i l'. induction l as [|x t IH]; intros i l'; simpl.
  - intro E; injection E as <-. contradiction.
  - destruct (f i x) as [b|] eqn:Eb; [|discriminate].
    destruct (mapOptionI f (Datatypes.S i) t) as [bs|] eqn:Ebs; [|discriminate].
    intro E; injection E as <-. intros y [<-|Hy]; [eauto|]. exact (IH _ _ Ebs y Hy).
Qed.





Lemma existsb_mol_id_false (rs : list Molecule) (i : string) :
  existsb (fun r => String.eqb (mol_id r) i) rs = false <-> ~ In i (map mol_id rs).
Proof.
  split.
  - intros H Hin. apply in_map_iff in Hin as (r & Er & Hr).
    assert (Ht : existsb (fun r => String.eqb (mol_id r) i) rs = true).
    { apply existsb_exists. exists r. split; [exact Hr|]. apply String.eqb_eq. exact Er. }
    congruence.
  - intro H. destruct (existsb (fun r => String.eqb (mol_id r) i) rs) eqn:E; [|reflexivity].
    apply existsb_exists in E as (r & Hr & Er). apply String.eqb_eq in Er.
    exfalso. apply H. rewrite <- Er. apply in_map. exact Hr.
Qed.

Lemma map_mol_id_filter (rs : list Molecule) (i : string) :
  map mol_id (filter (fun r => negb (String.eqb (mol_id r) i)) rs)
  = filter (fun j => negb (String.eqb j i)) (map mol_id rs).
Proof. induction rs as [|a t IH]; simpl; [reflexivity|]. destruct (negb _); simpl; congruence. Qed.

(** Selecting reactants: a molecule not yet selected is appended, and
    selecting it again removes it and leaves the selection as before; a
    selected molecule is deselected (no copy of its id is left); and the
    selection never holds two molecules with the same id. *)
Theorem reactionlab_toggle (rs : list Molecule) (mol : Molecule) :
  (~ In (mol_id mol) (map mol_id rs) ->
     ReactionLab.toggleReactant rs mol = (rs ++ [mol])%list
     /\ ReactionLab.toggleReactant (ReactionLab.toggleReactant rs mol) mol = rs)
  /\ (In (mol_id mol) (map mol_id rs) ->
        ~ In (mol_id mol) (map mol_id (ReactionLab.toggleReactant rs mol)))
  /\ (NoDup (map mol_id rs) -> NoDup (map mol_id (ReactionLab.toggleReactant rs mol))).
Proof.
  unfold ReactionLab.toggleReactant. split; [|split].
  - intro Hn. pose proof (proj2 (existsb_mol_id_false rs (mol_id mol)) Hn) as E.
    rewrite E. split; [reflexivity|].
    rewrite existsb_app. simpl. rewrite String.eqb_refl, orb_true_r.
    rewrite filter_app. simpl. rewrite String.eqb_refl. simpl. rewrite app_nil_r.
    rewrite <- (filter_true rs) at 2. apply filter_ext_in.
    intros r Hr. destruct (String.eqb_spec (mol_id r) (mol_id mol)); [|reflexivity].
    exfalso. apply Hn. rewrite <- e. apply in_map. exact Hr.
  - intro Hin. destruct (existsb _ rs) eqn:E.
    + rewrite map_mol_id_filter. intro H. apply filter_In in H as [_ H].
      rewrite String.eqb_refl in H. discriminate.
    + exfalso. exact (proj1 (existsb_mol_id_false rs (mol_id mol)) E Hin).
  - intro Hnd. destruct (existsb _ rs) eqn:E.
    + rewrite map_mol_id_filter. apply NoDup_filter. exact Hnd.
    + rewrite map_app. apply NoDup_app; [exact Hnd | repeat constructor; simpl; tauto|].
      intros a Ha [<-|[]]. exact (proj1 (existsb_mol_id_false rs (mol_id mol)) E Ha).
Qed.

Lemma reactionlab_toggle_witness :
  ~ In (mol_id water) (map mol_id [])
  /\ ReactionLab.toggleReactant (ReactionLab.toggleReactant [] water) water = [].
Proof.
  assert (Hn : ~ In (mol_id water) (map mol_id [])) by (simpl; tauto).
  split; [exact Hn|]. exact (proj2 (proj1 (reactionlab_toggle [] water) Hn)).
Defined.

Lemma simulate_failures_help (apiKey : option string) (resp : GenResponse)
  (jsonParse : string -> option ParsedReaction) (clock : nat -> nat)
  (settle : nat -> nat -> Q * Q) (message : string) :
  simulateReaction apiKey resp jsonParse clock settle = ReactionRejected message ->
  message = "API Key not found" \/ message = reactionFailure.
Proof.
  unfold simulateReaction.
  destruct (negb (truthyStr apiKey)); [intro E; injection E as <-; auto|].
  destruct resp as [|t]; [intro E; injection E as <-; auto|].
  destruct (negb (truthyStr t)); [intro E; injection E as <-; auto|].
  destruct (jsonParse _); [|intro E; injection E as <-; auto].
  destruct (mapOptionI _ _ _); [discriminate | intro E; injection E as <-; auto].
Qed.

(** Pressing React with no reactant does nothing. Otherwise, once the
    simulation settles, loading is over, the reactants are kept, and the
    lab shows exactly one of a result or an error, the error being either
    the missing-key message or the generic failure message. *)
Theorem reactionlab_react (s : ReactionLab.State) (apiKey : option string) (resp : GenResponse)
  (jsonParse : string -> option ParsedReaction) (clock : nat -> nat)
  (settle : nat -> nat -> Q * Q) :
  let s' := ReactionLab.handleReact s (simulateReaction apiKey resp jsonParse clock settle) in
  (ReactionLab.reactants s = [] -> s' = s)
  /\ (ReactionLab.reactants s <> [] ->
      ReactionLab.reactants s' = ReactionLab.reactants s /\ ReactionLab.loading s' = false
      /\ ((exists r, ReactionLab.result s' = Some r /\ ReactionLab.error s' = None)
          \/ (ReactionLab.result s' = None
              /\ (ReactionLab.error s' = Some "API Key not found"
                  \/ ReactionLab.error s' = Some reactionFailure)))).
Proof.
  cbn zeta. unfold ReactionLab.handleReact. split.
  - intro E. now rewrite E.
  - intro Hne. destruct (ReactionLab.reactants s) as [|r0 rest] eqn:Er; [contradiction|].
    destruct (simulateReaction apiKey resp jsonParse clock settle) as [r|msg] eqn:Eo.
    + cbn. repeat split; auto. left. eauto.
    + cbn. repeat split; auto. right. split; [reflexivity|].
      destruct (simulate_failures_help _ _ _ _ _ _ Eo) as [-> | ->]; [left | right]; reflexivity.
Qed.

Lemma reactionlab_react_witness :
  ReactionLab.reactants (ReactionLab.mkState [water] None true None) <> []
  /\ ReactionLab.loading (ReactionLab.handleReact (ReactionLab.mkState [water] None true None)
       (simulateReaction None GenThrows (fun _ => None) (fun _ => 0%nat) (fun _ _ => (0, 0))))
     = false.
Proof.
  assert (Hne : ReactionLab.reactants (ReactionLab.mkState [water] None true None) <> [])
    by discriminate.
  split; [exact Hne|].
  exact (proj1 (proj2 (proj2 (reactionlab_react (ReactionLab.mkState [water] None true None)
           None GenThrows (fun _ => None) (fun _ => 0%nat) (fun _ _ => (0, 0))) Hne))).
Defined.





(** ** Bond invariants of the editors *)

Lemma joins_sym (a b : string) (bd : BondData) : joins a b bd = joins b a bd.
Proof. unfold joins. rewrite orb_comm. f_equal; apply andb_comm. Qed.

Lemma joins_new_bond (a b s t i : string) (o : Z) (bd : BondData) :
  joins a b (mkBond i s t o) = true -> joins a b bd = joins s t bd.
Proof.
  unfold joins at 1; cbn [sourceAtomId targetAtomId]. intro H.
  apply orb_prop in H as [H|H]; apply andb_prop in H as [H1 H2];
    apply String.eqb_eq in H1, H2; subst; [reflexivity | apply joins_sym].
Qed.

Lemma filter_none_all {A} (p : A -> bool) (l : list A) :
  findIndex p l = None -> filter p l = [].
Proof.
  induction l as [|h t IH]; simpl; [reflexivity|].
  destruct (p h); [discriminate|]. destruct (findIndex p t); [discriminate|]. auto.
Qed.

Lemma length_filter_replace_nth {A} (p : A -> bool) (i : nat) (x y : A) (l : list A) :
  nth_error l i = Some x -> p x = p y ->
  List.length (filter p (replace_nth i y l)) = List.length (filter p l).
Proof.
  revert i. induction l as [|h t IH]; intros i; [destruct i; reflexivity|].
  destruct i as [|j]; simpl.
  - intros E Hp. injection E as ->. rewrite <- Hp. destruct (p x); reflexivity.
  - intros E Hp. destruct (p h); simpl; rewrite (IH j E Hp); reflexivity.
Qed.

Lemma In_replace_nth {A} (i : nat) (y z : A) (l : list A) :
  In z (replace_nth i y l) -> z = y \/ In z l.
Proof.
  revert i. induction l as [|h t IH]; intros i; [destruct i; simpl; tauto|].
  destruct i as [|j]; simpl.
  - intros [<-|H]; auto.
  - intros [<-|H]; [auto|]. destruct (IH j H); auto.
Qed.

Lemma cycleOrder_range (o : Z) : (1 <= CyclingRenderer.cycleOrder o <= 3)%Z.
Proof.
  unfold CyclingRenderer.cycleOrder.
  destruct (Z.eqb o 1); [lia|]. destruct (Z.eqb o 2); lia.
Qed.

Lemma length_filter_filter_le {A} (p q : A -> bool) (l : list A) :
  (List.length (filter p (filter q l)) <= List.length (filter p l))%nat.
Proof.
  induction l as [|h t IH]; simpl; [lia|].
  destruct (q h); simpl; destruct (p h); simpl; lia.
Qed.

Lemma invariants_filter_bonds (m m' : Molecule) (q : BondData -> bool) :
  bonds m' = filter q (bonds m) -> pairUnique m -> ordersValid m ->
  pairUnique m' /\ ordersValid m'.
Proof.
  intros E Hu Ho. split.
  - intros a b. rewrite E. eapply Nat.le_trans; [apply length_filter_filter_le | apply Hu].
  - intros bd Hb. rewrite E in Hb. apply filter_In in Hb. apply Ho. tauto.
Qed.

Lemma addOrCycleBond_invariants (m : Molecule) (sel atomId : string) (now : nat) :
  pairUnique m -> ordersValid m ->
  pairUnique (CyclingRenderer.addOrCycleBond m sel atomId now)
  /\ ordersValid (CyclingRenderer.addOrCycleBond m sel atomId now).
Proof.
  intros Hu Ho. unfold CyclingRenderer.addOrCycleBond.
  destruct (findIndex (joins sel atomId) (bonds m)) as [i|] eqn:Ef.
  - destruct (nth_error (bonds m) i) as [bd|] eqn:En; [|split; assumption].
    split.
    + intros a b. cbn [bonds with_bonds].
      rewrite (length_filter_replace_nth _ i bd _ _ En); [apply Hu|].
      symmetry. apply joins_same_ends.
    + intros x Hx. cbn [bonds with_bonds] in Hx. apply In_replace_nth in Hx as [->|Hx].
      * apply cycleOrder_range.
      * apply Ho. exact Hx.
  - pose proof (filter_none_all _ _ Ef) as Hnone. split.
    + intros a b. cbn [bonds with_bonds]. rewrite filter_app, length_app. cbn [filter].
      destruct (joins a b _) eqn:Ej.
      * rewrite (filter_ext _ _ (fun bd => joins_new_bond _ _ _ _ _ _ bd Ej)), Hnone.
        simpl. lia.
      * simpl. specialize (Hu a b). lia.
    + intros x Hx. cbn [bonds with_bonds] in Hx. apply in_app_or in Hx as [Hx|[<-|[]]].
      * apply Ho. exact Hx.
      * simpl. lia.
Qed.

Lemma clickAtom_invariants (s : Session) (m : Molecule) (drag : bool) (atomId : string)
  (now : nat) :
  pairUnique m -> ordersValid m ->
  pairUnique (currentMolecule (clickAtom s m drag atomId now))
  /\ ordersValid (currentMolecule (clickAtom s m drag atomId now)).
Proof.
  intros Hu Ho. unfold clickAtom, CyclingRenderer.handleAtomClick. cbn [negb].
  destruct (builderMode s); cbn [fold_left applyCallback currentMolecule isDragging].
  - destruct drag; [auto|]. cbn [selectedAtomId].
    destruct (truthy (selection s)) as [sel|]; [|auto].
    destruct (negb (String.eqb sel atomId)); cbn [fold_left applyCallback currentMolecule];
      [apply addOrCycleBond_invariants|]; auto.
  - eapply invariants_filter_bonds; [reflexivity | exact Hu | exact Ho].
Qed.

(** Whatever the user does in the builder (palette, mode buttons, taps,
    drags, bond deletions), the molecule never has two bonds between the
    same two atoms, and every bond order stays 1, 2 or 3. *)
Theorem session_bond_invariants (es : list Event) :
  pairUnique (currentMolecule (run initSession es))
  /\ ordersValid (currentMolecule (run initSession es)).
Proof.
  unfold run.
  assert (H0 : pairUnique (currentMolecule initSession) /\ ordersValid (currentMolecule initSession)).
  { split; [intros a b; simpl; lia | intros bd []]. }
  revert H0. generalize initSession. induction es as [|e rest IH]; intros s [Hu Ho]; [auto|].
  cbn [fold_left]. apply IH. destruct e as [el now jx jy|md|atomId now|atomId px py now|bondId];
    cbn [step].
  - split; [exact Hu | exact Ho].
  - split; [exact Hu | exact Ho].
  - destruct (builderMode s); apply clickAtom_invariants; assumption.
  - destruct (builderMode s); apply clickAtom_invariants; assumption.
  - eapply invariants_filter_bonds; [reflexivity | exact Hu | exact Ho].
Qed.

(** The click handler of the non-cycling renderer only appends a bond
    between two atoms no bond joins yet, always a single bond, so it
    keeps both invariants too. *)
Theorem basic_click_invariants (interactive : bool) (md : Mode) (now : nat) (v : Viewer)
  (atomId : string)
  (Hu : pairUnique (internalMolecule v)) (Ho : ordersValid (internalMolecule v)) :
  pairUnique (internalMolecule (fst (BasicRenderer.handleAtomClick interactive md now v atomId)))
  /\ ordersValid (internalMolecule (fst (BasicRenderer.handleAtomClick interactive md now v atomId))).
Proof.
  unfold BasicRenderer.handleAtomClick.
  destruct (negb interactive); [auto|]. destruct md; [|auto].
  destruct (isDragging v); [auto|]. destruct (truthy (selectedAtomId v)) as [sel|]; [|auto].
  destruct (negb (String.eqb sel atomId)); [|auto].
  destruct (existsb (joins sel atomId) (bonds (internalMolecule v))) eqn:Ex; [auto|].
  cbn [fst internalMolecule]. split.
  - intros a b. cbn [bonds with_bonds]. rewrite filter_app, length_app. cbn [filter].
    destruct (joins a b _) eqn:Ej.
    + rewrite (filter_ext _ _ (fun bd => joins_new_bond _ _ _ _ _ _ bd Ej)).
      assert (Hn : filter (joins sel atomId) (bonds (internalMolecule v)) = []).
      { apply filter_none_all. destruct (findIndex _ _) as [i|] eqn:Ef; [|reflexivity].
        exfalso. revert Ex Ef. generalize (bonds (internalMolecule v)) i.
        intros l; induction l as [|h t IH]; intros j; simpl; [discriminate|].
        destruct (joins sel atomId h); [discriminate|]. simpl. intros Ex Ef.
        destruct (findIndex _ t) eqn:E'; [|discriminate]. exact (IH n Ex eq_refl). }
      rewrite Hn. simpl. lia.
    + simpl. specialize (Hu a b). lia.
  - intros x Hx. cbn [bonds with_bonds] in Hx. apply in_app_or in Hx as [Hx|[<-|[]]].
    + apply Ho. exact Hx.
    + simpl. lia.
Qed.

Lemma basic_click_invariants_witness :
  pairUnique (internalMolecule (mkViewer water (Some "1") false))
  /\ ordersValid (internalMolecule (mkViewer water (Some "1") false))
  /\ pairUnique (internalMolecule
       (fst (BasicRenderer.handleAtomClick true Build 5 (mkViewer water (Some "1") false) "2"))).
Proof.
  assert (Hu : pairUnique (internalMolecule (mkViewer water (Some "1") false)))
    by (intros a b; simpl; lia).
  assert (Ho : ordersValid (internalMolecule (mkViewer water (Some "1") false)))
    by (intros bd []).
  split; [exact Hu|]. split; [exact Ho|].
  exact (proj1 (basic_click_invariants true Build 5 (mkViewer water (Some "1") false) "2" Hu Ho)).
Defined.

(** ** The formula fallback of identifyMolecule *)

Lemma bump_keys (el k : string) (acc : list (string * nat)) :
  In k (map fst (bump el acc)) <-> k = el \/ In k (map fst acc).
Proof.
  induction acc as [|[k0 c0] t IH]; simpl.
  - split; [intros [E|[]]; auto | intros [E|[]]; auto].
  - destruct (String.eqb_spec k0 el) as [->|Hne]; simpl.
    + split; [intros [E|H]; auto | intros [E|[E|H]]; subst; auto].
    + rewrite IH. split; [intros [E|[E|H]]; auto | intros [E|[E|H]]; auto].
Qed.

Lemma bump_NoDup (el : string) (acc : list (string * nat)) :
  NoDup (map fst acc) -> NoDup (map fst (bump el acc)).
Proof.
  induction acc as [|[k0 c0] t IH]; simpl; intro Hnd; [repeat constructor; simpl; tauto|].
  inversion Hnd as [|x l Hnot Hnd' E]; subst.
  destruct (String.eqb_spec k0 el) as [E|Ne]; simpl; constructor; auto.
  rewrite bump_keys. intros [E|H]; [exact (Ne E) | contradiction].
Qed.

Lemma bump_entries (el k : string) (c : nat) (acc : list (string * nat)) :
  NoDup (map fst acc) -> In (k, c) (bump el acc) ->
  (k = el /\ ((exists c0, In (el, c0) acc /\ c = Datatypes.S c0)
              \/ (~ In el (map fst acc) /\ c = 1%nat)))
  \/ (k <> el /\ In (k, c) acc).
Proof.
  induction acc as [|[k0 c0] t IH]; simpl; intros Hnd Hin.
  - destruct Hin as [E|[]]. injection E as <- <-. left. split; [reflexivity|]. right. tauto.
  - inversion Hnd as [|x l Hnot Hnd' E]; subst.
    destruct (String.eqb_spec k0 el) as [->|Hne].
    + destruct Hin as [E|Hin].
      * injection E as <- <-. left. split; [reflexivity|]. left. exists c0. auto.
      * right. split; [|auto]. intros ->. apply Hnot. apply (in_map fst) in Hin. exact Hin.
    + destruct Hin as [E|Hin].
      * injection E as <- <-. right. auto.
      * destruct (IH Hnd' Hin) as [[-> [[c1 [H1 H2]] | [H1 H2]]] | [H1 H2]].
        -- left. split; [reflexivity|]. left. exists c1. auto.
        -- left. split; [reflexivity|]. right. split; [|exact H2]. intros [E|E]; auto.
        -- right. auto.
Qed.

Lemma countsInv_bump (acc : list (string * nat)) (seen : list string) (el : string) :
  countsInv acc seen -> countsInv (bump el acc) (seen ++ [el]).
Proof.
  intros (Hnd & Hk & Hc). split; [|split].
  - apply bump_NoDup. exact Hnd.
  - intro k. rewrite bump_keys, in_app_iff, Hk. simpl.
    split; [intros [E|H]; auto | intros [H|[E|[]]]; auto].
  - intros k c Hin. rewrite count_occ_app. simpl.
    destruct (bump_entries el k c acc Hnd Hin) as [[-> [[c0 [H1 ->]] | [H1 ->]]] | [H1 H2]].
    + rewrite (Hc el c0 H1). destruct (string_dec el el); [lia | contradiction].
    + assert (Hz : count_occ string_dec seen el = 0%nat).
      { apply count_occ_not_In. rewrite <- Hk. exact H1. }
      rewrite Hz. destruct (string_dec el el); [lia | contradiction].
    + rewrite (Hc k c H2). destruct (string_dec el k) as [E|]; [congruence | lia].
Qed.

(** The element counts behind the fallback formula list each element of
    the molecule exactly once, and with the number of its atoms. *)
Theorem formula_counts (m : Molecule) :
  NoDup (map fst (elementCounts m))
  /\ (forall el, In el (map fst (elementCounts m)) <-> In el (map element (atoms m)))
  /\ (forall el c, In (el, c) (elementCounts m) ->
        c = count_occ string_dec (map element (atoms m)) el).
Proof.
  unfold elementCounts.
  assert (H : forall l acc seen, countsInv acc seen ->
            countsInv (fold_left (fun acc a => bump (element a) acc) l acc)
              (seen ++ map element l)).
  { induction l as [|a t IH]; intros acc seen Hinv; simpl.
    - now rewrite app_nil_r.
    - replace (seen ++ element a :: map element t)%list
        with ((seen ++ [element a]) ++ map element t)%list
        by (rewrite <- app_assoc; reflexivity).
      apply IH. apply countsInv_bump. exact Hinv. }
  destruct (H (atoms m) [] [] ltac:(split; [constructor | split; [reflexivity | intros k c []]]))
    as (H1 & H2 & H3).
  exact (conj H1 (conj H2 H3)).
Qed.

Lemma formula_counts_witness :
  In ("H", 2%nat) (elementCounts water)
  /\ 2%nat = count_occ string_dec (map element (atoms water)) "H".
Proof.
  assert (Hin : In ("H", 2%nat) (elementCounts water)).
  { change (In ("H", 2%nat) [("O", 1%nat); ("H", 2%nat)]). right; left; reflexivity. }
  split; [exact Hin|].
  exact (proj2 (proj2 (formula_counts water)) "H" 2%nat Hin).
Defined.

(** ** Dragging and deleting *)

(** In build mode, dragging an atom (down, move, up, and the click the
    browser fires afterwards) moves that atom to the pointer and changes
    nothing else: the bonds, the atoms' ids and elements, the other atoms
    and the pending bond source are kept. *)
Theorem session_drag_moves_only (s : Session) (atomId : string) (px py : Q) (now : nat)
  (Hb : builderMode s = Build) :
  let s' := step s (DragAtom atomId px py now) in
  bonds (currentMolecule s') = bonds (currentMolecule s)
  /\ selection s' = selection s
  /\ atomIds (currentMolecule s') = atomIds (currentMolecule s)
  /\ map element (atoms (currentMolecule s')) = map element (atoms (currentMolecule s))
  /\ (forall a, In a (atoms (currentMolecule s')) -> atom_id a = atomId -> x a = px /\ y a = py)
  /\ (forall a, In a (atoms (currentMolecule s')) -> atom_id a <> atomId ->
        In a (atoms (currentMolecule s))).
Proof.
  cbn zeta. unfold step. rewrite Hb. unfold clickAtom, CyclingRenderer.handleAtomClick.
  rewrite Hb. cbn [negb isDragging fold_left currentMolecule selection selectedAtomId].
  unfold moveAtom, atomIds. cbn [atoms bonds with_atoms].
  split; [reflexivity|]. split; [reflexivity|]. split; [|split; [|split]].
  - rewrite map_map. apply map_ext. intro a. destruct (String.eqb (atom_id a) atomId); reflexivity.
  - rewrite map_map. apply map_ext. intro a. destruct (String.eqb (atom_id a) atomId); reflexivity.
  - intros a Ha Hid. apply in_map_iff in Ha as (a0 & Ea & Ha0).
    destruct (String.eqb_spec (atom_id a0) atomId); [subst a; split; reflexivity|].
    subst a. contradiction.
  - intros a Ha Hid. apply in_map_iff in Ha as (a0 & Ea & Ha0).
    destruct (String.eqb_spec (atom_id a0) atomId).
    + subst a. contradiction.
    + subst a. exact Ha0.
Qed.

Lemma session_drag_moves_only_witness :
  builderMode (mkSession water Build None false) = Build
  /\ selection (step (mkSession water Build (Some "2") false) (DragAtom "1" 10 20 3)) = Some "2".
Proof.
  split; [reflexivity|].
  exact (proj1 (proj2 (session_drag_moves_only (mkSession water Build (Some "2") false)
                         "1" 10 20 3 eq_refl))).
Defined.

Lemma filter_comm {A} (p q : A -> bool) (l : list A) :
  filter p (filter q l) = filter q (filter p l).
Proof.
  induction l as [|h t IH]; simpl; [reflexivity|].
  destruct (q h) eqn:Eq, (p h) eqn:Ep; simpl; rewrite ?Eq, ?Ep, IH; reflexivity.
Qed.

Lemma filter_idem {A} (p : A -> bool) (l : list A) : filter p (filter p l) = filter p l.
Proof.
  induction l as [|h t IH]; simpl; [reflexivity|].
  destruct (p h) eqn:Ep; simpl; rewrite ?Ep, IH; reflexivity.
Qed.

(** Deleting atoms, or bonds, gives the same molecule in any order, and
    deleting the same one twice is the same as once; deleting an id that
    names no atom and no bond end leaves the molecule as it was. *)
Theorem delete_commute_idem (m : Molecule) (a b : string) :
  handleAtomDelete (handleAtomDelete m a) b = handleAtomDelete (handleAtomDelete m b) a
  /\ handleAtomDelete (handleAtomDelete m a) a = handleAtomDelete m a
  /\ handleBondDelete (handleBondDelete m a) b = handleBondDelete (handleBondDelete m b) a
  /\ handleBondDelete (handleBondDelete m a) a = handleBondDelete m a
  /\ (~ In a (atomIds m) ->
      (forall bd, In bd (bonds m) -> sourceAtomId bd <> a /\ targetAtomId bd <> a) ->
      handleAtomDelete m a = m).
Proof.
  destruct m as [i n ats bds]. unfold handleAtomDelete, handleBondDelete, with_bonds, atomIds;
    cbn [mol_id name atoms bonds]. repeat split.
  - f_equal; apply filter_comm.
  - f_equal; apply filter_idem.
  - f_equal; apply filter_comm.
  - f_equal; apply filter_idem.
  - intros Ha Hb. f_equal.
    + rewrite <- (filter_true ats) at 2. apply filter_ext_in. intros x Hx.
      destruct (String.eqb_spec (atom_id x) a); [|reflexivity].
      exfalso. apply Ha. rewrite <- e. apply in_map. exact Hx.
    + rewrite <- (filter_true bds) at 2. apply filter_ext_in. intros bd Hbd.
      destruct (Hb bd Hbd) as [Hs Ht].
      apply String.eqb_neq in Hs, Ht. rewrite Hs, Ht. reflexivity.
Qed.

Lemma delete_commute_idem_witness :
  ~ In "9" (atomIds water)
  /\ (forall bd, In bd (bonds water) -> sourceAtomId bd <> "9" /\ targetAtomId bd <> "9")
  /\ handleAtomDelete water "9" = water.
Proof.
  assert (Ha : ~ In "9" (atomIds water)) by (simpl; intuition discriminate).
  assert (Hb : forall bd, In bd (bonds water) -> sourceAtomId bd <> "9" /\ targetAtomId bd <> "9")
    by (intros bd []).
  split; [exact Ha|]. split; [exact Hb|].
  exact (proj2 (proj2 (proj2 (proj2 (delete_commute_idem water "9" "9")))) Ha Hb).
Defined.
